(** * ts-service-locator: the registry of [src/index.ts]

    The module keeps one object, [instances], created by the object literal
    [{}], and hands out locators whose [set] and [get] write and read
    properties of that object.  An object literal is an ordinary ECMAScript
    object whose [[Prototype]] is [Object.prototype], so a property read
    ([instances[k]]) and a property write ([instances[k] = v]) are the
    ordinary [[Get]] and [[Set]] of ECMA-262 (10.1.8, 10.1.9): they consult
    the own properties first and the prototype chain next, and they run the
    getter or the setter of an accessor property they find there, with
    [instances] as the receiver.

    The embedding keeps the own properties of [instances] in a [gmap], its
    [[Prototype]] slot next to it, and the other objects of the program in a
    heap the registry only reads. *)

From Stdlib Require Import ZArith SpecFloat.
From stdpp Require Import gmap strings list fin_maps.

Local Open Scope string_scope.

(** ** Values *)

Module Js.

(** Object identity.  Two references are the same object exactly when
    their locations are equal. *)
Definition loc := positive.

(** ECMAScript language values.  Numbers are IEEE 754 doubles
    ([spec_float]); an object, callable or not, is a reference into the
    heap. *)
Inductive JsValue : Type :=
| VUndefined
| VNull
| VBoolean (b : bool)
| VNumber (x : spec_float)
| VBigInt (n : Z)
| VString (s : string)
| VSymbol (id : positive)
| VObject (l : loc).

(** The double nearest to an integer literal. *)
Definition number_of_Z (z : Z) : spec_float :=
  binary_normalize 53 1024 z 0 false.

(** [ToBoolean v] (ECMA-262 7.1.2): the falsy values are [undefined],
    [null], [false], [+0], [-0], [NaN], [0n] and the empty string. *)
Definition ToBoolean (v : JsValue) : bool :=
  match v with
  | VUndefined | VNull => false
  | VBoolean b => b
  | VNumber (S754_zero _) | VNumber S754_nan => false
  | VNumber _ => true
  | VBigInt n => negb (n =? 0)%Z
  | VString s => negb (String.eqb s "")
  | VSymbol _ | VObject _ => true
  end.

(** A property key that is already a string is used as it is; the registry
    reaches a property access only behind its [isString] guard, so the
    conversions of other values are not needed. *)
Definition ToPropertyKey (v : JsValue) : option string :=
  match v with
  | VString s => Some s
  | _ => None
  end.

End Js.
Import Js.

(** ** The backing store *)

(** [const instances: Record<string, any> = {}] (index.ts:1): the own
    properties of the object, all of them writable data properties, and its
    [[Prototype]]. *)
Record Store : Type := MkStore {
  own : gmap string JsValue;
  store_proto : option loc
}.

(** ** Computations of the module *)

(** What is thrown: the TypeError of a failed strict-mode assignment, or a
    value thrown by code of a caller. *)
Inductive JsError : Type :=
| TypeError
| Thrown (v : JsValue).

(** The outcome of running a piece of code on a store: a normal completion
    with a result, or a thrown error; both with the store as it is
    afterwards.  The heap is the same before and after: the registry writes
    to [instances] only. *)
Inductive Completion (A : Type) : Type :=
| Normal (a : A) (σ : Store)
| Throw (e : JsError) (σ : Store).
Arguments Normal {A} a σ.
Arguments Throw {A} e σ.

Definition M (A : Type) : Type := Store → Completion A.

Definition ret {A} (a : A) : M A := λ σ, Normal a σ.

Definition throw {A} (e : JsError) : M A := λ σ, Throw e σ.

Definition bind {A B} (m : M A) (f : A → M B) : M B :=
  λ σ, match m σ with
       | Normal a σ' => f a σ'
       | Throw e σ' => Throw e σ'
       end.

Notation "'let*' x ':=' m 'in' f" := (bind m (λ x, f))
  (at level 10, x name, m at level 100, f at level 200).
Notation "m '>>' f" := (bind m (λ _, f))
  (at level 100, f at level 200, right associativity).

(** The store a computation leaves behind. *)
Definition final_store {A} (c : Completion A) : Store :=
  match c with
  | Normal _ σ | Throw _ σ => σ
  end.

(** ** Objects *)

(** The getter and the setter of an accessor property a caller has defined.
    [[Get]] and [[Set]] call them with [instances] as the [this] value, so
    they are code that runs on the store: it may read it, change it, and
    throw.  What such code does to other objects is not followed; no
    theorem below says what happens once it has run, except where the code
    is given. *)
Definition Getter : Type := M JsValue.
Definition Setter : Type := JsValue → M unit.

(** A property of a heap object: a data property with its [[Value]] and
    [[Writable]] attribute; the built-in accessor [__proto__] of
    [Object.prototype] (ECMA-262 20.1.3.8, Annex B.2.2.1 in earlier
    editions); or an accessor property with the getter and the setter it
    has, if any. *)
Inductive Property : Type :=
| PData (value : JsValue) (writable : bool)
| PProtoAccessor
| PAccessor (getter : option Getter) (setter : option Setter).

Record Obj : Type := MkObj {
  props : gmap string Property;
  proto : option loc
}.

Abbreviation Heap := (gmap loc Obj).

(** The first property named [k] on the prototype chain that starts at [o].
    Every object visited costs one unit of [fuel]. *)
Fixpoint lookup_chain (fuel : nat) (h : Heap) (o : option loc) (k : string)
  : option Property :=
  match fuel, o with
  | S n, Some l =>
      match h !! l with
      | Some ob =>
          match props ob !! k with
          | Some p => Some p
          | None => lookup_chain n h (proto ob) k
          end
      | None => None
      end
  | _, _ => None
  end.

(** The objects a lookup that starts at [o] visits, in order, up to the end
    of the chain.  ECMAScript keeps prototype chains free of cycles
    ([[SetPrototypeOf]], 10.1.2), so in the heap of a program this list exists
    and has no duplicates. *)
Inductive proto_path (h : Heap) : option loc → list loc → Prop :=
| path_null : proto_path h None []
| path_unknown l : h !! l = None → proto_path h (Some l) []
| path_step l ob ls :
    h !! l = Some ob → proto_path h (proto ob) ls →
    proto_path h (Some l) (l :: ls).

(** ** Reads and writes of [instances] *)

(** The property [k] that [instances] inherits. *)
Definition inherited (h : Heap) (σ : Store) (k : string) : option Property :=
  lookup_chain (size h) h (store_proto σ) k.

(** The value of [instances.[[GetPrototypeOf]]()]. *)
Definition proto_value (σ : Store) : JsValue :=
  match store_proto σ with
  | Some l => VObject l
  | None => VNull
  end.

(** [instances.[[Get]](k, instances)]: OrdinaryGet.  An own property
    answers with its value; otherwise the first property of that name on
    the chain does: a data property with its value, an accessor by running
    its getter on the store ([undefined] when it has none). *)
Definition instances_get (h : Heap) (k : string) : M JsValue :=
  λ σ, match own σ !! k with
       | Some v => Normal v σ
       | None =>
           match inherited h σ k with
           | Some (PData v _) => Normal v σ
           | Some PProtoAccessor => Normal (proto_value σ) σ
           | Some (PAccessor (Some getter) _) => getter σ
           | Some (PAccessor None _) => Normal VUndefined σ
           | None => Normal VUndefined σ
           end
       end.

(** The [__proto__] setter applied to [instances]: an object or [null]
    becomes the new [[Prototype]], any other value is ignored.
    [instances] is extensible and is not on the chain of any object of the
    heap, so [[SetPrototypeOf]] succeeds. *)
Definition set_proto (σ : Store) (v : JsValue) : Store :=
  match v with
  | VObject l => MkStore (own σ) (Some l)
  | VNull => MkStore (own σ) None
  | _ => σ
  end.

(** [instances.[[Set]](k, v, instances)]: OrdinarySet, with the boolean it
    returns.  An own property is updated.  Otherwise the first property of
    that name on the chain decides: a writable data property, or none at
    all, lets the own property be created; a read-only data property and an
    accessor without a setter make [[Set]] return [false]; an accessor with
    a setter has the setter run on the store. *)
Definition instances_put (h : Heap) (k : string) (v : JsValue) : M bool :=
  λ σ, match own σ !! k with
       | Some _ => Normal true (MkStore (<[k := v]> (own σ)) (store_proto σ))
       | None =>
           match inherited h σ k with
           | None | Some (PData _ true) =>
               Normal true (MkStore (<[k := v]> (own σ)) (store_proto σ))
           | Some (PData _ false) => Normal false σ
           | Some PProtoAccessor => Normal true (set_proto σ v)
           | Some (PAccessor _ (Some setter)) => (setter v >> ret true) σ
           | Some (PAccessor _ None) => Normal false σ
           end
       end.

(** The expression [instances[k]]. *)
Definition read (h : Heap) (k : string) : M JsValue := instances_get h k.

(** The statement [instances[k] = v].  An ECMAScript module is strict mode
    code, where an assignment whose [[Set]] returns [false] throws a
    TypeError (PutValue, ECMA-262 6.2.5.6). *)
Definition assign (h : Heap) (k : string) (v : JsValue) : M unit :=
  let* ok := instances_put h k v in
  if ok : bool then ret tt else throw TypeError.

(** [isString] (index.ts:3-5): [typeof arg === "string"].  [typeof] yields
    ["string"] for the String values and for no other value (ECMA-262
    13.5.3). *)
Definition isString (arg : JsValue) : bool :=
  match arg with
  | VString _ => true
  | _ => false
  end.

(** The object a call of the factory returns. *)
Record ServiceLocator : Type := MkServiceLocator {
  set : JsValue → JsValue → M unit;
  get : JsValue → M JsValue
}.

(** [createServiceLocator] (index.ts:7-20).  The two methods close over the
    module's [instances]; the factory itself leaves the store alone.  The
    expression statement [isString;] that opens [set] (index.ts:9) evaluates
    a name and does nothing.  [get] evaluates [instances[instanceId]] once in
    its condition and once more for the value it returns, and returns
    [undefined] by falling off its end. *)
Definition createServiceLocator (h : Heap) : M ServiceLocator :=
  ret {|
    set := λ instanceId instance,
      if isString instanceId then
        match ToPropertyKey instanceId with
        | Some k => assign h k instance
        | None => ret tt
        end
      else ret tt;
    get := λ instanceId,
      if isString instanceId then
        match ToPropertyKey instanceId with
        | Some k =>
            let* v := read h k in
            if ToBoolean v then read h k else ret VUndefined
        | None => ret VUndefined
        end
      else ret VUndefined
  |}.

(** ** The program around the registry *)

(** A call a client makes.  Each call goes through a locator obtained from
    the factory, as in [createSl<T>().get("server")]. *)
Inductive Call : Type :=
| CallSet (instanceId instance : JsValue)
| CallGet (instanceId : JsValue).

Definition call (h : Heap) (c : Call) : M JsValue :=
  let* sl := createServiceLocator h in
  match c with
  | CallSet instanceId instance => set sl instanceId instance >> ret VUndefined
  | CallGet instanceId => get sl instanceId
  end.

(** The store after a sequence of calls; a client that catches an error
    goes on with the store as the failed call left it. *)
Fixpoint run_calls (h : Heap) (cs : list Call) (σ : Store) : Store :=
  match cs with
  | [] => σ
  | c :: cs' => run_calls h cs' (final_store (call h c σ))
  end.

(** A key is Present when [get] returns a value for it and Absent when
    [get] returns [undefined]. *)
Definition is_undefined (v : JsValue) : bool :=
  match v with
  | VUndefined => true
  | _ => false
  end.

Definition is_present (h : Heap) (σ : Store) (k : string) : bool :=
  match call h (CallGet (VString k)) σ with
  | Normal v _ => negb (is_undefined v)
  | Throw _ _ => false
  end.

(** An assignment to [instances[k]] updates the own property [k], or
    creates it unless the prototype chain holds an accessor or a read-only
    property under that name. *)
Definition assignable (h : Heap) (σ : Store) (k : string) : bool :=
  match own σ !! k with
  | Some _ => true
  | None =>
      match inherited h σ k with
      | None | Some (PData _ true) => true
      | Some (PData _ false) | Some PProtoAccessor | Some (PAccessor _ _) => false
      end
  end.

(** The store with [v] in the own property [k]. *)
Definition with_own (σ : Store) (k : string) (v : JsValue) : Store :=
  MkStore (<[k := v]> (own σ)) (store_proto σ).

(** The calls the amended state-machine property admits: [get], and [set]
    of a truthy value under a key whose assignment lands in an own
    property. *)
Definition truthy_own_call (h : Heap) (σ : Store) (c : Call) : Prop :=
  match c with
  | CallSet (VString k) v => ToBoolean v = true ∧ assignable h σ k = true
  | _ => True
  end.

(** ** The standard environment *)

(** [Object.prototype] (ECMA-262 20.1.3) as it is when the module is
    loaded: eleven methods in writable data properties and the accessor
    [__proto__]; its own [[Prototype]] is [null]. *)
Definition ObjectPrototype : loc := 1%positive.

(** The function object [Object.prototype.toString]. *)
Definition ObjectPrototype_toString : loc := 10%positive.

Definition object_prototype_methods : list (string * loc) :=
  [ ("constructor", 2); ("__defineGetter__", 3); ("__defineSetter__", 4);
    ("hasOwnProperty", 5); ("__lookupGetter__", 6); ("__lookupSetter__", 7);
    ("isPrototypeOf", 8); ("propertyIsEnumerable", 9);
    ("toString", ObjectPrototype_toString);
    ("valueOf", 11); ("toLocaleString", 12) ]%positive.

Definition object_prototype : Obj :=
  MkObj
    (<["__proto__" := PProtoAccessor]>
       (list_to_map
          (map (λ m, (m.1, PData (VObject m.2) true)) object_prototype_methods)))
    None.

(** The heap of a program that has created no object of its own.  The
    function objects behind the methods are never traversed by the registry
    in the examples below and are left out. *)
Definition standard_heap : Heap := {[ ObjectPrototype := object_prototype ]}.

(** The value of [instances] when the module has just been loaded: the
    object literal [{}]. *)
Definition instances_init : Store := MkStore ∅ (Some ObjectPrototype).

(** Number literals used in the examples. *)
Definition zero : JsValue := VNumber (S754_zero false).
Definition one : JsValue := VNumber (number_of_Z 1).
Definition two : JsValue := VNumber (number_of_Z 2).

(** A client object made by [Object.freeze({a: 1})], and the heap that
    holds it. *)
Definition frozen_loc : loc := 40%positive.

Definition frozen_object : Obj :=
  MkObj {[ "a" := PData one false ]} (Some ObjectPrototype).

Definition heap_with_frozen : Heap := <[frozen_loc := frozen_object]> standard_heap.

(** A client object such as the [mockServer] of the tests:
    [{ fetchUsers: jest.fn() }]. *)
Definition mock_loc : loc := 50%positive.

Definition mock_object : Obj :=
  MkObj {[ "fetchUsers" := PData (VObject 51%positive) true ]} (Some ObjectPrototype).

Definition heap_with_mock : Heap := <[mock_loc := mock_object]> standard_heap.

(** A client object made by [Object.create(null)]: no property and no
    prototype. *)
Definition bare_loc : loc := 60%positive.

Definition bare_object : Obj := MkObj ∅ None.

Definition heap_with_bare : Heap := <[bare_loc := bare_object]> standard_heap.

(** A client object with a getter,
    [{ get x() { delete this.server; return 1 } }].  Run with [instances]
    as [this], the getter removes the own property ["server"] (own
    properties made by assignment are configurable) and returns [1]. *)
Definition forgetful_getter : Getter :=
  λ σ, Normal one (MkStore (delete "server" (own σ)) (store_proto σ)).

Definition getter_loc : loc := 70%positive.

Definition getter_object : Obj :=
  MkObj {[ "x" := PAccessor (Some forgetful_getter) None ]} (Some ObjectPrototype).

Definition heap_with_getter : Heap := <[getter_loc := getter_object]> heap_with_mock.

(** [Map.prototype] (ECMA-262 24.1.3), as far as its string-keyed
    properties go: ten methods in writable data properties and the
    accessor [size], which has a getter and no setter.  The getter throws a
    TypeError when [this] is not a Map, as [instances] is not. *)
Definition MapPrototype : loc := 80%positive.

Definition map_size_getter : Getter := throw TypeError.

Definition map_prototype_methods : list (string * loc) :=
  [ ("constructor", 81); ("clear", 82); ("delete", 83); ("entries", 84);
    ("forEach", 85); ("get", 86); ("has", 87); ("keys", 88); ("set", 89);
    ("values", 90) ]%positive.

Definition map_prototype : Obj :=
  MkObj
    (<["size" := PAccessor (Some map_size_getter) None]>
       (list_to_map
          (map (λ m, (m.1, PData (VObject m.2) true)) map_prototype_methods)))
    (Some ObjectPrototype).

Definition heap_with_map : Heap := <[MapPrototype := map_prototype]> standard_heap.

(** ** Keys and calls that stay clear of accessors *)

(** Reading [instances[k]] runs no code of a caller: the store owns [k], or
    what it inherits under [k] is not an accessor a caller defined. *)
Definition readable (h : Heap) (σ : Store) (k : string) : bool :=
  match own σ !! k with
  | Some _ => true
  | None =>
      match inherited h σ k with
      | Some (PAccessor _ _) => false
      | _ => true
      end
  end.

(** What [instances[k]] evaluates to when [k] is readable. *)
Definition data_value (h : Heap) (σ : Store) (k : string) : JsValue :=
  match own σ !! k with
  | Some v => v
  | None =>
      match inherited h σ k with
      | Some (PData v _) => v
      | Some PProtoAccessor => proto_value σ
      | _ => VUndefined
      end
  end.

(** The key of the call is a string that resolves, on the store as it is,
    to an accessor a caller defined. *)
Definition hits_accessor (h : Heap) (σ : Store) (c : Call) : bool :=
  match c with
  | CallSet (VString k) _ | CallGet (VString k) => negb (readable h σ k)
  | _ => false
  end.


(** ** A plain map, for comparison *)




(** The values the [__proto__] setter acts on. *)
Definition is_object_or_null (v : JsValue) : bool :=
  match v with
  | VObject _ | VNull => true
  | _ => false
  end.

(** * Properties *)

(** ** The methods, unfolded *)

Lemma isString_spec v : isString v = true ↔ ∃ s, v = VString s.
Proof.
  split; [| intros [s ->]; reflexivity].
  destruct v; try discriminate. eauto.
Qed.

Section Registry.

Variable h : Heap.

Lemma set_string k v σ :
  (let* sl := createServiceLocator h in set sl (VString k) v) σ = assign h k v σ.
Proof. reflexivity. Qed.

(** What follows a [set] runs on the store the [set] leaves, and not at
    all when the [set] throws. *)
Lemma set_then {A} instanceId instance (f : ServiceLocator → M A) σ :
  (let* sl := createServiceLocator h in set sl instanceId instance >> f sl) σ
  = match (let* sl := createServiceLocator h in set sl instanceId instance) σ with
    | Normal _ σ' => (let* sl := createServiceLocator h in f sl) σ'
    | Throw e σ' => Throw e σ'
    end.
Proof. reflexivity. Qed.

(** The single validation: a key that is not a string makes [set] a no-op
    and [get] answer [undefined]. *)
Lemma set_not_string instanceId instance σ :
  isString instanceId = false →
  (let* sl := createServiceLocator h in set sl instanceId instance) σ = Normal tt σ.
Proof.
  intros Hs. unfold bind, createServiceLocator, ret. cbn.
  rewrite Hs. reflexivity.
Qed.

Lemma get_not_string instanceId σ :
  isString instanceId = false →
  (let* sl := createServiceLocator h in get sl instanceId) σ = Normal VUndefined σ.
Proof.
  intros Hs. unfold bind, createServiceLocator, ret. cbn.
  rewrite Hs. reflexivity.
Qed.

(** ** Fuel of the prototype walk *)

Lemma lookup_chain_enough o ls k n :
  proto_path h o ls → (length ls ≤ n)%nat →
  lookup_chain n h o k = lookup_chain (length ls) h o k.
Proof.
  intros Hp. revert n. induction Hp as [| l Hl | l ob ls Hl Hp IH]; intros n Hn.
  - destruct n; reflexivity.
  - destruct n; cbn; [reflexivity | by rewrite Hl].
  - destruct n as [| n]; cbn in Hn; [lia |].
    cbn. rewrite Hl. destruct (props ob !! k); [reflexivity |].
    apply IH. lia.
Qed.

Lemma proto_path_dom o ls : proto_path h o ls → ∀ l, l ∈ ls → l ∈ dom h.
Proof.
  induction 1 as [| l Hl | l ob ls Hl Hp IH]; intros l' Hin.
  - by apply elem_of_nil in Hin.
  - by apply elem_of_nil in Hin.
  - apply elem_of_cons in Hin as [-> | Hin]; [| by apply IH].
    apply elem_of_dom. eauto.
Qed.

Lemma proto_path_length o ls :
  proto_path h o ls → NoDup ls → (length ls ≤ size h)%nat.
Proof.
  intros Hp Hnd.
  rewrite <- (size_list_to_set (C := gset loc) ls Hnd), <- size_dom.
  apply subseteq_size. intros l Hl.
  apply elem_of_list_to_set in Hl. by eapply proto_path_dom.
Qed.

(** On a chain without cycles the walk never runs out of fuel: a larger
    supply finds the same property. *)
Lemma lookup_chain_fuel o ls k n :
  proto_path h o ls → NoDup ls → (size h ≤ n)%nat →
  lookup_chain n h o k = lookup_chain (size h) h o k.
Proof.
  intros Hp Hnd Hn.
  pose proof (proto_path_length o ls Hp Hnd) as Hlen.
  rewrite (lookup_chain_enough o ls k n Hp) by lia.
  by rewrite (lookup_chain_enough o ls k (size h) Hp).
Qed.

(** ** Reads and writes that meet no accessor *)

Lemma assignable_readable σ k : assignable h σ k = true → readable h σ k = true.
Proof.
  unfold assignable, readable. destruct (own σ !! k); [done |].
  destruct (inherited h σ k) as [[w [] | | g s] |]; done.
Qed.

Lemma instances_get_readable σ k :
  readable h σ k = true → instances_get h k σ = Normal (data_value h σ k) σ.
Proof.
  unfold readable, instances_get, data_value. destruct (own σ !! k); [done |].
  destruct (inherited h σ k) as [[w b | | g s] |]; done.
Qed.

(** Under a readable key the two reads of [get] agree, and [get] hands
    back the store it was given. *)
Lemma get_string k σ :
  readable h σ k = true →
  (let* sl := createServiceLocator h in get sl (VString k)) σ =
  Normal (if ToBoolean (data_value h σ k) then data_value h σ k
          else VUndefined) σ.
Proof.
  intros Hr.
  change ((let* sl := createServiceLocator h in get sl (VString k)) σ)
    with ((let* v := read h k in
           if ToBoolean v then read h k else ret VUndefined) σ).
  unfold bind, read. rewrite instances_get_readable by assumption.
  destruct (ToBoolean (data_value h σ k)); [| reflexivity].
  by rewrite instances_get_readable.
Qed.

Lemma inherited_with_own σ k v k' :
  inherited h (with_own σ k v) k' = inherited h σ k'.
Proof. reflexivity. Qed.

Lemma instances_put_assignable σ k v :
  assignable h σ k = true → instances_put h k v σ = Normal true (with_own σ k v).
Proof.
  unfold assignable, instances_put, with_own.
  destruct (own σ !! k); [reflexivity |].
  destruct (inherited h σ k) as [[w [] | | g s] |]; intros;
    (reflexivity || discriminate).
Qed.

Lemma readable_with_own_eq σ k v : readable h (with_own σ k v) k = true.
Proof. unfold readable, with_own; cbn. by rewrite lookup_insert_eq. Qed.


Lemma data_value_with_own_eq σ k v : data_value h (with_own σ k v) k = v.
Proof. unfold data_value, with_own; cbn. by rewrite lookup_insert_eq. Qed.

Lemma data_value_with_own_ne σ k v k' :
  k ≠ k' → data_value h (with_own σ k v) k' = data_value h σ k'.
Proof.
  intros Hne. unfold data_value, with_own; cbn.
  by rewrite lookup_insert_ne.
Qed.

Lemma assignable_with_own σ k v k' :
  assignable h σ k' = true → assignable h (with_own σ k v) k' = true.
Proof.
  unfold assignable, with_own; cbn. fold (inherited h σ k').
  destruct (decide (k = k')) as [-> | Hne].
  - by rewrite lookup_insert_eq.
  - by rewrite lookup_insert_ne.
Qed.

Lemma with_own_idemp σ k v : with_own (with_own σ k v) k v = with_own σ k v.
Proof. unfold with_own; cbn. by rewrite insert_insert_eq. Qed.

Lemma with_own_overwrite σ k v1 v2 :
  with_own (with_own σ k v1) k v2 = with_own σ k v2.
Proof. unfold with_own; cbn. by rewrite insert_insert_eq. Qed.

(** ** What holds when the assignment lands in an own property *)

Lemma set_assignable k v σ :
  assignable h σ k = true →
  (let* sl := createServiceLocator h in set sl (VString k) v) σ
  = Normal tt (with_own σ k v).
Proof.
  intros Ha. rewrite set_string. unfold assign, bind.
  by rewrite instances_put_assignable.
Qed.

Lemma set_then_get_assignable k v σ :
  assignable h σ k = true →
  (let* sl := createServiceLocator h in
   set sl (VString k) v >> get sl (VString k)) σ
  = Normal (if ToBoolean v then v else VUndefined) (with_own σ k v).
Proof.
  intros Ha. rewrite set_then, set_assignable by assumption.
  rewrite get_string by apply readable_with_own_eq.
  by rewrite data_value_with_own_eq.
Qed.

Lemma overwrite_assignable k v1 v2 σ :
  assignable h σ k = true →
  (let* sl := createServiceLocator h in
   set sl (VString k) v1 >> set sl (VString k) v2 >> get sl (VString k)) σ
  = Normal (if ToBoolean v2 then v2 else VUndefined) (with_own σ k v2).
Proof.
  intros Ha. rewrite set_then, set_assignable by assumption.
  rewrite set_then_get_assignable by (by apply assignable_with_own).
  by rewrite with_own_overwrite.
Qed.


Lemma set_twice_assignable k v σ :
  assignable h σ k = true →
  (let* sl := createServiceLocator h in
   set sl (VString k) v >> set sl (VString k) v) σ
  = (let* sl := createServiceLocator h in set sl (VString k) v) σ.
Proof.
  intros Ha. rewrite set_then, set_assignable by assumption.
  rewrite set_assignable by (by apply assignable_with_own).
  by rewrite with_own_idemp.
Qed.


(** ** Presence *)

(** Under a readable key, presence is the truthiness of what
    [instances[k]] evaluates to. *)
Lemma is_present_spec σ k :
  readable h σ k = true →
  is_present h σ k = ToBoolean (data_value h σ k).
Proof.
  intros Hr. unfold is_present, call.
  change (bind (createServiceLocator h) (λ sl, get sl (VString k)) σ)
    with ((let* sl := createServiceLocator h in get sl (VString k)) σ).
  rewrite get_string by assumption.
  destruct (ToBoolean (data_value h σ k)) eqn:Hb; [| reflexivity].
  destruct (data_value h σ k); (reflexivity || discriminate).
Qed.

(** A [get] that hits no accessor hands back the store it was given. *)
Lemma call_get_store instanceId σ :
  hits_accessor h σ (CallGet instanceId) = false →
  final_store (call h (CallGet instanceId) σ) = σ.
Proof.
  intros Hc. unfold call.
  change (bind (createServiceLocator h) (λ sl, get sl instanceId) σ)
    with ((let* sl := createServiceLocator h in get sl instanceId) σ).
  destruct (isString instanceId) eqn:Hs.
  - apply isString_spec in Hs as [k ->]. cbn in Hc.
    apply negb_false_iff in Hc. by rewrite get_string.
  - by rewrite get_not_string.
Qed.

Lemma call_set_not_string instanceId instance σ :
  isString instanceId = false →
  final_store (call h (CallSet instanceId instance) σ) = σ.
Proof.
  intros Hs. unfold call, bind, createServiceLocator, ret; cbn.
  rewrite Hs. reflexivity.
Qed.

Lemma call_set_assignable k v σ :
  assignable h σ k = true →
  final_store (call h (CallSet (VString k) v) σ) = with_own σ k v.
Proof.
  intros Ha. unfold call, bind, createServiceLocator, ret, assign; cbn.
  unfold assign, bind. rewrite instances_put_assignable by assumption. reflexivity.
Qed.

End Registry.

(** ** The prototype of the store *)

Lemma lookup_chain_null fuel h k : lookup_chain fuel h None k = None.
Proof. destruct fuel; reflexivity. Qed.

Lemma size_pos_of_lookup (h : Heap) l ob : h !! l = Some ob → ∃ n, size h = S n.
Proof.
  intros Hl. destruct (size h) as [| n] eqn:Hn; [| eauto].
  apply map_size_empty_iff in Hn. subst h. by rewrite lookup_empty in Hl.
Qed.


Lemma inherited_some_proto h σ k p :
  inherited h σ k = Some p → ∃ l, store_proto σ = Some l.
Proof.
  unfold inherited. destruct (store_proto σ) as [l |]; [eauto |].
  by rewrite lookup_chain_null.
Qed.

(** In any heap that holds the standard [Object.prototype], a store whose
    prototype is that object inherits exactly its properties. *)
Lemma inherited_object_prototype h σ k :
  h !! ObjectPrototype = Some object_prototype →
  store_proto σ = Some ObjectPrototype →
  inherited h σ k = props object_prototype !! k.
Proof.
  intros Hh Hσ. unfold inherited. rewrite Hσ.
  destruct (size_pos_of_lookup h _ _ Hh) as [n ->]. cbn [lookup_chain].
  rewrite Hh. destruct (props object_prototype !! k); [reflexivity |].
  change (proto object_prototype) with (@None loc). apply lookup_chain_null.
Qed.

Lemma inherited_fresh h k :
  h !! ObjectPrototype = Some object_prototype →
  inherited h instances_init k = props object_prototype !! k.
Proof. intros Hh. by apply inherited_object_prototype. Qed.

(** [Object.prototype] holds writable methods and the accessor
    [__proto__], nothing else. *)
Lemma object_prototype_props k p :
  props object_prototype !! k = Some p →
  p = PProtoAccessor ∨ ∃ l, p = PData (VObject l) true.
Proof.
  unfold object_prototype; cbn [props].
  destruct (decide ("__proto__" = k)) as [<- | Hne].
  - rewrite lookup_insert_eq. intros [= <-]. by left.
  - rewrite lookup_insert_ne by assumption. intros Hk.
    apply elem_of_list_to_map_2, list_elem_of_In, in_map_iff in Hk
      as ([name l] & [= <- <-] & _).
    right. eauto.
Qed.

(** Under the standard [Object.prototype] every key is readable. *)
Lemma readable_object_prototype h σ k :
  h !! ObjectPrototype = Some object_prototype →
  store_proto σ = Some ObjectPrototype →
  readable h σ k = true.
Proof.
  intros Hh Hσ. unfold readable. destruct (own σ !! k); [reflexivity |].
  rewrite inherited_object_prototype by assumption.
  destruct (props object_prototype !! k) as [p |] eqn:Hk; [| reflexivity].
  by destruct (object_prototype_props k p Hk) as [-> | [l ->]].
Qed.

(** One admitted call on a store under the standard [Object.prototype]
    keeps the prototype, keeps a Present key Present and keeps later calls
    admitted. *)
Lemma truthy_own_call_step h σ c :
  h !! ObjectPrototype = Some object_prototype →
  store_proto σ = Some ObjectPrototype →
  truthy_own_call h σ c →
  let σ' := final_store (call h c σ) in
  store_proto σ' = Some ObjectPrototype ∧
  (∀ k, is_present h σ k = true → is_present h σ' k = true) ∧
  (∀ c', truthy_own_call h σ c' → truthy_own_call h σ' c').
Proof.
  intros Hh Hσ Hc σ'.
  assert (σ' = σ ∨ ∃ k v, σ' = with_own σ k v ∧ ToBoolean v = true) as Hσ'.
  { subst σ'. destruct c as [instanceId instance | instanceId].
    - destruct instanceId;
        try (left; apply call_set_not_string; reflexivity).
      destruct Hc as [Ht Ha]. right. exists s, instance.
      split; [by apply call_set_assignable | assumption].
    - left. apply call_get_store.
      destruct instanceId; try reflexivity. cbn.
      by rewrite readable_object_prototype. }
  clearbody σ'. destruct Hσ' as [-> | (k & v & -> & Ht)]; [done |].
  split; [exact Hσ |]. split.
  - intros k0.
    rewrite !is_present_spec by (by apply readable_object_prototype).
    destruct (decide (k = k0)) as [-> | Hne].
    + by rewrite data_value_with_own_eq.
    + by rewrite data_value_with_own_ne.
  - intros [[] | ]; cbn; try done.
    intros [? ?]. split; [assumption | by apply assignable_with_own].
Qed.

(** ** The freshly loaded module *)

(** Every name that [Object.prototype] does not define is Absent. *)
Lemma get_fresh_absent k :
  props object_prototype !! k = None →
  (let* sl := createServiceLocator standard_heap in get sl (VString k)) instances_init
  = Normal VUndefined instances_init.
Proof.
  intros Hk.
  assert (Hh : standard_heap !! ObjectPrototype = Some object_prototype)
    by reflexivity.
  rewrite get_string by (by apply readable_object_prototype).
  assert (data_value standard_heap instances_init k = VUndefined) as ->; [| done].
  unfold data_value.
  change (own instances_init !! k) with ((∅ : gmap string JsValue) !! k).
  by rewrite lookup_empty, inherited_fresh, Hk.
Qed.

(** Every such name can be assigned. *)
Lemma assignable_fresh k :
  props object_prototype !! k = None →
  assignable standard_heap instances_init k = true.
Proof.
  intros Hk.
  assert (Hh : standard_heap !! ObjectPrototype = Some object_prototype)
    by reflexivity.
  unfold assignable.
  change (own instances_init !! k) with ((∅ : gmap string JsValue) !! k).
  by rewrite lookup_empty, inherited_fresh, Hk.
Qed.

(** The scenario of the tests: nothing registered, then the mock server
    registered and found. *)
Example scenario_server :
  (let* sl := createServiceLocator heap_with_mock in
   get sl (VString "server")) instances_init
  = Normal VUndefined instances_init ∧
  (let* sl := createServiceLocator heap_with_mock in
   set sl (VString "server") (VObject mock_loc) >>
   get sl (VString "server")) instances_init
  = Normal (VObject mock_loc) (with_own instances_init "server" (VObject mock_loc)).
Proof. split; reflexivity. Qed.

(** A truthy value under ["__proto__"] can make a Present key Absent as
    well: [set("__proto__", Object.create(null))] takes [toString] away. *)
Example present_key_becomes_absent_by_proto :
  ToBoolean (VObject bare_loc) = true ∧
  is_present heap_with_bare instances_init "toString" = true ∧
  is_present heap_with_bare
    (run_calls heap_with_bare
       [CallSet (VString "__proto__") (VObject bare_loc)] instances_init)
    "toString" = false.
Proof. repeat split. Qed.

(** With [Map.prototype] stored under ["__proto__"], the name ["size"]
    resolves to an accessor that has a getter and no setter: [get("size")]
    runs the getter, which throws, and [set("size", 1)] throws because
    there is no setter. *)
Example map_prototype_size_throws :
  let σ := MkStore ∅ (Some MapPrototype) in
  (let* sl := createServiceLocator heap_with_map in
   set sl (VString "__proto__") (VObject MapPrototype)) instances_init
  = Normal tt σ ∧
  (let* sl := createServiceLocator heap_with_map in get sl (VString "size")) σ
  = Throw TypeError σ ∧
  (let* sl := createServiceLocator heap_with_map in set sl (VString "size") one) σ
  = Throw TypeError σ.
Proof. repeat split. Qed.

(** ** The specification, sentence by sentence *)

(** C1: [set(k, v)] with a truthy [v] followed by [get(k)] is to return
    [v].  With the key ["__proto__"] and the number [1], in a program that
    has just loaded the module, the assignment runs the setter inherited from
    [Object.prototype], which ignores a value that is neither an object nor
    [null]; the read runs the getter, and [get] returns [Object.prototype]
    instead of [1]. *)
Theorem set_get_proto_key_returns_prototype :
  ToBoolean one = true ∧
  (let* sl := createServiceLocator standard_heap in
   set sl (VString "__proto__") one >> get sl (VString "__proto__")) instances_init
  = Normal (VObject ObjectPrototype) instances_init ∧
  VObject ObjectPrototype ≠ one.
Proof. split; [reflexivity |]. split; [reflexivity | discriminate]. Qed.

(** C2: [get(k)] is to return [undefined] for a key never passed to [set].
    In a program that has just loaded the module and has called [set] on no
    key at all, [get("toString")] returns the method that [instances]
    inherits from [Object.prototype]. *)
Theorem get_unset_toString_returns_method :
  (let* sl := createServiceLocator standard_heap in
   get sl (VString "toString")) instances_init
  = Normal (VObject ObjectPrototype_toString) instances_init ∧
  VObject ObjectPrototype_toString ≠ VUndefined.
Proof. split; [reflexivity | discriminate]. Qed.

(** C3: [set(k, v1)], [set(k, v2)], [get(k)] is to return [v2] and never
    [v1].  With the key ["__proto__"], the test's mock object as [v1] and the
    number [2] as [v2], the first call makes the mock object the prototype of
    [instances], the second is ignored by the setter, and [get] returns
    [v1]. *)
Theorem overwrite_proto_key_returns_first :
  ToBoolean (VObject mock_loc) = true ∧ ToBoolean two = true ∧
  ∃ σ,
    (let* sl := createServiceLocator heap_with_mock in
     set sl (VString "__proto__") (VObject mock_loc) >>
     set sl (VString "__proto__") two >>
     get sl (VString "__proto__")) instances_init
    = Normal (VObject mock_loc) σ ∧
    VObject mock_loc ≠ two.
Proof.
  split; [reflexivity |]. split; [reflexivity |].
  eexists. split; [vm_compute; reflexivity | discriminate].
Qed.

(** C4: [set(k, v)] with a falsy [v] followed by [get(k)] is to return
    [undefined].  With the key ["__proto__"] and each of [0], [""] and
    [false], [get] returns [Object.prototype]. *)
Theorem falsy_proto_key_returns_prototype :
  Forall
    (λ v,
       ToBoolean v = false ∧
       (let* sl := createServiceLocator standard_heap in
        set sl (VString "__proto__") v >> get sl (VString "__proto__")) instances_init
       = Normal (VObject ObjectPrototype) instances_init)
    [zero; VString ""; VBoolean false] ∧
  VObject ObjectPrototype ≠ VUndefined.
Proof.
  split; [| discriminate].
  repeat (apply Forall_cons; split; [split; reflexivity |]).
  apply Forall_nil. exact I.
Qed.

(** C5: after [sl1.set(k, v)] with a truthy [v], [sl2.get(k)] on a locator
    from another call of the factory is to return [v].  The two locators do
    share the store (see [shared_store_assignable]), and with it the defect
    of C1: for the key ["__proto__"] and the number [1], [sl2.get] returns
    [Object.prototype]. *)
Theorem second_locator_proto_key_returns_prototype :
  ToBoolean one = true ∧
  (let* sl1 := createServiceLocator standard_heap in
   let* sl2 := createServiceLocator standard_heap in
   set sl1 (VString "__proto__") one >> get sl2 (VString "__proto__")) instances_init
  = Normal (VObject ObjectPrototype) instances_init ∧
  VObject ObjectPrototype ≠ one.
Proof. split; [reflexivity |]. split; [reflexivity | discriminate]. Qed.

(** C6: neither [set] nor [get] is to throw on any input.  Once a client
    has stored a frozen object under ["__proto__"], as in
    [sl.set("__proto__", Object.freeze({a: 1}))], the call [sl.set("a", 2)]
    assigns to a name that [instances] inherits read-only, and the
    assignment throws a TypeError. *)
Theorem set_inherited_read_only_throws :
  let σ := MkStore ∅ (Some frozen_loc) in
  (let* sl := createServiceLocator heap_with_frozen in
   set sl (VString "__proto__") (VObject frozen_loc)) instances_init
  = Normal tt σ ∧
  (let* sl := createServiceLocator heap_with_frozen in
   set sl (VString "a") two) σ
  = Throw TypeError σ.
Proof. split; reflexivity. Qed.

(** C7: [get] is to leave the backing store unchanged for every key.
    With ["server"] registered, a client stores an object with a getter
    under ["__proto__"], as in
    [sl.set("__proto__", { get x() { delete this.server; return 1 } })];
    [get("x")] then evaluates [instances["x"]], which runs the getter with
    [instances] as [this]: [get] returns [1] and the store has lost
    ["server"]. *)
Theorem get_runs_getter_that_changes_store :
  let σ := MkStore {[ "server" := VObject mock_loc ]} (Some getter_loc) in
  (let* sl := createServiceLocator heap_with_getter in
   set sl (VString "server") (VObject mock_loc) >>
   set sl (VString "__proto__") (VObject getter_loc)) instances_init
  = Normal tt σ ∧
  (let* sl := createServiceLocator heap_with_getter in get sl (VString "x")) σ
  = Normal one (MkStore ∅ (Some getter_loc)) ∧
  own σ !! "server" = Some (VObject mock_loc) ∧
  own (MkStore ∅ (Some getter_loc)) !! "server" = None.
Proof. repeat split. Qed.

(** C8, as the spec states it: over any sequence of [set] and [get] calls a
    Present key stays Present.  After [set("server", 1)] the key is Present,
    and [set("server", 0)] makes it Absent. *)
Lemma present_key_becomes_absent :
  ¬ (∀ (cs : list Call) (c : Call) (k : string),
       let σ := run_calls standard_heap cs instances_init in
       is_present standard_heap σ k = true →
       is_present standard_heap (final_store (call standard_heap c σ)) k = true).
Proof.
  intros H.
  specialize (H [CallSet (VString "server") one]
                (CallSet (VString "server") zero) "server" eq_refl).
  vm_compute in H. discriminate H.
Qed.

(** C8, amended: on a store whose prototype is the standard
    [Object.prototype], as it is from the loading of the module on, over any
    sequence of [get] calls and of [set] calls that store truthy values
    under keys whose assignment lands in an own property of the store, a
    Present key stays Present: every key moves only from Absent to Present
    or from Present to Present. *)
Theorem present_stays_present (h : Heap) (cs : list Call) (σ : Store) (k : string) :
  h !! ObjectPrototype = Some object_prototype →
  store_proto σ = Some ObjectPrototype →
  Forall (truthy_own_call h σ) cs →
  is_present h σ k = true →
  is_present h (run_calls h cs σ) k = true.
Proof.
  intros Hh. revert σ.
  induction cs as [| c cs IH]; intros σ Hσ Hcs Hk; [assumption |].
  apply Forall_cons in Hcs as [Hc Hcs].
  destruct (truthy_own_call_step h σ c Hh Hσ Hc) as (Hσ' & Hp & Hn).
  cbn [run_calls]. apply IH; [exact Hσ' | | by apply Hp].
  eapply Forall_impl; [exact Hcs | exact Hn].
Qed.

(** The amended C8 on a run of the tests' kind: with ["server"] registered,
    registering a logger, reading, registering over ["server"] and a [set]
    under a symbol leave ["server"] Present. *)
Lemma present_stays_present_witness :
  let cs := [ CallSet (VString "logger") (VObject mock_loc);
              CallGet (VString "server");
              CallGet (VString "toString");
              CallSet (VString "server") one;
              CallSet (VSymbol 1) zero ] in
  let σ := with_own instances_init "server" (VObject mock_loc) in
  heap_with_mock !! ObjectPrototype = Some object_prototype ∧
  store_proto σ = Some ObjectPrototype ∧
  Forall (truthy_own_call heap_with_mock σ) cs ∧
  is_present heap_with_mock σ "server" = true ∧
  is_present heap_with_mock (run_calls heap_with_mock cs σ) "server" = true.
Proof.
  intros cs σ.
  assert (Hcs : Forall (truthy_own_call heap_with_mock σ) cs).
  { repeat constructor. }
  assert (Hk : is_present heap_with_mock σ "server" = true) by reflexivity.
  split; [reflexivity |]. split; [reflexivity |].
  split; [exact Hcs |]. split; [exact Hk |].
  exact (present_stays_present heap_with_mock cs σ "server" eq_refl eq_refl Hcs Hk).
Defined.

(** C9: [set(k, v)] is to leave [get(k')] unaffected for every other key
    [k'].  In a program that has just loaded the module,
    [set("__proto__", null)] creates no own property and removes the
    prototype of [instances]: [get("toString")] returns the inherited method
    before the call and [undefined] after it. *)
Theorem set_proto_key_changes_other_key :
  "__proto__" ≠ "toString" ∧
  (let* sl := createServiceLocator standard_heap in
   get sl (VString "toString")) instances_init
  = Normal (VObject ObjectPrototype_toString) instances_init ∧
  ∃ σ,
    (let* sl := createServiceLocator standard_heap in
     set sl (VString "__proto__") VNull >> get sl (VString "toString")) instances_init
    = Normal VUndefined σ ∧
    own σ = own instances_init.
Proof.
  split; [discriminate |]. split; [reflexivity |].
  eexists. split; [vm_compute; reflexivity | reflexivity].
Qed.

(** C10: calling [set(k, v)] twice is to leave the store as calling it once
    does.  In a program that has just loaded the module, one call of
    [set("__proto__", null)] removes the prototype of [instances] and creates
    no own property; with the setter gone, the second call creates the own
    property ["__proto__"]. *)
Theorem set_proto_key_twice_differs :
  final_store
    ((let* sl := createServiceLocator standard_heap in
      set sl (VString "__proto__") VNull) instances_init)
  = MkStore ∅ None ∧
  final_store
    ((let* sl := createServiceLocator standard_heap in
      set sl (VString "__proto__") VNull >>
      set sl (VString "__proto__") VNull) instances_init)
  = MkStore {[ "__proto__" := VNull ]} None ∧
  MkStore ∅ None ≠ MkStore {[ "__proto__" := VNull ]} None.
Proof.
  split; [reflexivity |]. split; [reflexivity |].
  intros H. apply (f_equal (λ σ, own σ !! "__proto__")) in H.
  vm_compute in H. discriminate H.
Qed.


(** ** Further properties of the code *)

(** X1: the one validation of the module.  For a key that is not a string,
    [set] returns without touching the store and [get] returns [undefined],
    whatever the store and the heap hold. *)
Theorem non_string_key_is_ignored
  (h : Heap) (instanceId instance : JsValue) (σ : Store) :
  isString instanceId = false →
  (let* sl := createServiceLocator h in set sl instanceId instance) σ
  = Normal tt σ ∧
  (let* sl := createServiceLocator h in get sl instanceId) σ
  = Normal VUndefined σ ∧
  (let* sl := createServiceLocator h in
   set sl instanceId instance >> get sl instanceId) σ
  = Normal VUndefined σ.
Proof.
  intros Hs. split; [by apply set_not_string |].
  split; [by apply get_not_string |].
  rewrite set_then, set_not_string by assumption.
  by apply get_not_string.
Qed.

Lemma non_string_key_is_ignored_witness :
  let σ := with_own instances_init "server" (VObject mock_loc) in
  isString (VSymbol 7) = false ∧
  (let* sl := createServiceLocator heap_with_mock in
   set sl (VSymbol 7) one) σ = Normal tt σ ∧
  (let* sl := createServiceLocator heap_with_mock in get sl (VSymbol 7)) σ
  = Normal VUndefined σ ∧
  (let* sl := createServiceLocator heap_with_mock in
   set sl (VSymbol 7) one >> get sl (VSymbol 7)) σ
  = Normal VUndefined σ.
Proof.
  intros σ. split; [reflexivity |].
  exact (non_string_key_is_ignored heap_with_mock (VSymbol 7) one σ eq_refl).
Defined.







(** X5: last write wins.  Under a key whose assignment lands in an own
    property, two [set] calls in a row leave the store exactly as the second
    one alone does, and [get] sees the second value only. *)
Theorem last_write_wins (h : Heap) (k : string) (v1 v2 : JsValue) (σ : Store) :
  assignable h σ k = true →
  (let* sl := createServiceLocator h in
   set sl (VString k) v1 >> set sl (VString k) v2) σ
  = (let* sl := createServiceLocator h in set sl (VString k) v2) σ
  ∧
  (let* sl := createServiceLocator h in
   set sl (VString k) v1 >> set sl (VString k) v2 >> get sl (VString k)) σ
  = (let* sl := createServiceLocator h in
     set sl (VString k) v2 >> get sl (VString k)) σ.
Proof.
  intros Ha. split.
  - rewrite set_then, (set_assignable h k v1 σ Ha).
    rewrite (set_assignable h k v2 (with_own σ k v1))
      by (by apply assignable_with_own).
    by rewrite (set_assignable h k v2 σ Ha), with_own_overwrite.
  - rewrite overwrite_assignable by assumption.
    by rewrite set_then_get_assignable.
Qed.

Lemma last_write_wins_witness :
  assignable heap_with_mock instances_init "server" = true ∧
  (let* sl := createServiceLocator heap_with_mock in
   set sl (VString "server") one >> set sl (VString "server") (VObject mock_loc))
    instances_init
  = (let* sl := createServiceLocator heap_with_mock in
     set sl (VString "server") (VObject mock_loc)) instances_init
  ∧
  (let* sl := createServiceLocator heap_with_mock in
   set sl (VString "server") one >> set sl (VString "server") (VObject mock_loc) >>
   get sl (VString "server")) instances_init
  = (let* sl := createServiceLocator heap_with_mock in
     set sl (VString "server") (VObject mock_loc) >> get sl (VString "server"))
      instances_init.
Proof.
  split; [reflexivity |].
  exact (last_write_wins heap_with_mock "server" one (VObject mock_loc)
           instances_init eq_refl).
Defined.

(** *** Single calls, case by case *)











(** *** Sequences of calls *)












(** *** The prototype of the store, seen through [get] *)

(** An assignment under a key that resolves to the [__proto__] accessor
    runs its setter. *)
Lemma assign_proto_accessor h k v σ :
  own σ !! k = None → inherited h σ k = Some PProtoAccessor →
  assign h k v σ = Normal tt (set_proto σ v).
Proof.
  intros Ho Hi. unfold assign, bind, instances_put. by rewrite Ho, Hi.
Qed.



(** X14: a value that is neither an object nor [null] is dropped by the
    [__proto__] accessor.  When the key resolves to the accessor and the
    store does not own it, [set] with such a value leaves the store as it
    was, and [get] under the same key returns the prototype of the store,
    not the value. *)
Theorem accessor_key_drops_primitive
  (h : Heap) (σ : Store) (k : string) (v : JsValue) :
  own σ !! k = None → inherited h σ k = Some PProtoAccessor →
  is_object_or_null v = false →
  ∃ l, store_proto σ = Some l ∧
       (let* sl := createServiceLocator h in
        set sl (VString k) v >> get sl (VString k)) σ
       = Normal (VObject l) σ.
Proof.
  intros Ho Hi Hv.
  destruct (inherited_some_proto h σ k _ Hi) as [l Hl]. exists l.
  split; [exact Hl |].
  rewrite set_then, set_string, assign_proto_accessor by assumption.
  assert (set_proto σ v = σ) as -> by (destruct v; (reflexivity || discriminate)).
  rewrite get_string by (unfold readable; by rewrite Ho, Hi).
  unfold data_value, proto_value. rewrite Ho, Hi, Hl. reflexivity.
Qed.

Lemma accessor_key_drops_primitive_witness :
  own instances_init !! "__proto__" = None ∧
  inherited standard_heap instances_init "__proto__" = Some PProtoAccessor ∧
  is_object_or_null (VString "service") = false ∧
  ∃ l, store_proto instances_init = Some l ∧
       (let* sl := createServiceLocator standard_heap in
        set sl (VString "__proto__") (VString "service") >>
        get sl (VString "__proto__")) instances_init
       = Normal (VObject l) instances_init.
Proof.
  do 3 (split; [reflexivity |]).
  exact (accessor_key_drops_primitive standard_heap instances_init "__proto__"
           (VString "service") eq_refl eq_refl eq_refl).
Defined.

(** X15: the freshly loaded module.  In any heap that holds the standard
    [Object.prototype], a name that [Object.prototype] does not define is
    Absent before anything is registered, and registering a truthy value
    under it makes [get] return that value. *)
Theorem fresh_module_registers_and_finds (h : Heap) (k : string) (v : JsValue) :
  h !! ObjectPrototype = Some object_prototype →
  props object_prototype !! k = None →
  ToBoolean v = true →
  (let* sl := createServiceLocator h in get sl (VString k)) instances_init
  = Normal VUndefined instances_init ∧
  (let* sl := createServiceLocator h in
   set sl (VString k) v >> get sl (VString k)) instances_init
  = Normal v (with_own instances_init k v).
Proof.
  intros Hh Hk Ht.
  pose proof (inherited_fresh h k Hh) as Hi. rewrite Hk in Hi.
  split.
  - rewrite get_string by (by apply readable_object_prototype).
    unfold data_value.
    change (own instances_init !! k) with ((∅ : gmap string JsValue) !! k).
    by rewrite lookup_empty, Hi.
  - rewrite set_then_get_assignable, Ht; [reflexivity |].
    unfold assignable.
    change (own instances_init !! k) with ((∅ : gmap string JsValue) !! k).
    by rewrite lookup_empty, Hi.
Qed.

Lemma fresh_module_registers_and_finds_witness :
  heap_with_mock !! ObjectPrototype = Some object_prototype ∧
  props object_prototype !! "server" = None ∧
  ToBoolean (VObject mock_loc) = true ∧
  (let* sl := createServiceLocator heap_with_mock in
   get sl (VString "server")) instances_init
  = Normal VUndefined instances_init ∧
  (let* sl := createServiceLocator heap_with_mock in
   set sl (VString "server") (VObject mock_loc) >> get sl (VString "server"))
    instances_init
  = Normal (VObject mock_loc) (with_own instances_init "server" (VObject mock_loc)).
Proof.
  do 3 (split; [reflexivity |]).
  exact (fresh_module_registers_and_finds heap_with_mock "server" (VObject mock_loc)
           eq_refl eq_refl eq_refl).
Defined.


